(** * mongo_magic: a shallow embedding of the document-mapping layer

    The development follows [src/mongo_magic/mongo_doc.py] and
    [src/mongo_magic/model_instance.py].  Python objects that the code
    aliases (dicts, document instances) live in a heap of objects; the
    database behind the driver is a finite table of collections; the
    process-wide connection [DataBase._db] and the trace of driver calls
    are part of an explicit state that is threaded through every
    operation.  An exception leaves the state as the code left it when
    the exception was raised. *)

From Stdlib Require Import ZArith String List Bool Lia Arith.
Import ListNotations.
Open Scope string_scope.
Open Scope list_scope.
Open Scope Z_scope.

(** ** Python values and dicts *)

Definition loc := nat.

(** Values are the scalars the library handles, references to heap
    objects, and [VObj], an object the BSON encoder refuses. *)
Inductive value : Type :=
| VNone
| VBool (b : bool)
| VInt (z : Z)
| VStr (s : string)
| VOid (n : nat)
| VRef (l : loc)
| VObj.

Definition value_eqb (a b : value) : bool :=
  match a, b with
  | VNone, VNone => true
  | VBool x, VBool y => Bool.eqb x y
  | VInt x, VInt y => Z.eqb x y
  | VStr x, VStr y => String.eqb x y
  | VOid x, VOid y => Nat.eqb x y
  | VRef x, VRef y => Nat.eqb x y
  | VObj, VObj => true
  | _, _ => false
  end.


(** A Python dict with string keys: insertion ordered, keys unique. *)
Definition pydict := list (string * value).

Fixpoint dict_get (d : pydict) (k : string) : option value :=
  match d with
  | [] => None
  | (k', v) :: r => if String.eqb k' k then Some v else dict_get r k
  end.

Definition dict_has (d : pydict) (k : string) : bool :=
  match dict_get d k with Some _ => true | None => false end.

(** [d[k] = v]: overwrite in place, or append a new key. *)
Fixpoint dict_set (d : pydict) (k : string) (v : value) : pydict :=
  match d with
  | [] => [(k, v)]
  | (k', v') :: r =>
      if String.eqb k' k then (k', v) :: r else (k', v') :: dict_set r k v
  end.

(** [del d[k]] and [d.pop(k)], for a key that is there. *)
Definition dict_del (d : pydict) (k : string) : pydict :=
  filter (fun kv => negb (String.eqb (fst kv) k)) d.

(** [d.update(e)] *)
Definition dict_update (d e : pydict) : pydict :=
  fold_left (fun acc kv => dict_set acc (fst kv) (snd kv)) e d.

(** Heap objects.  A [Document] instance is a dict subclass: it has dict
    items of its own (empty unless the caller uses the dict interface)
    and an attribute mapping [__dict__], itself a dict object. *)
Inductive obj : Type :=
| ODict (items : pydict)
| OList (elems : list value)
| ODoc (items : pydict) (attrs : loc).

Definition heap := list obj.

Definition heap_get (h : heap) (l : loc) : option obj := nth_error h l.

Fixpoint heap_set (h : heap) (l : loc) (o : obj) : heap :=
  match h, l with
  | [], _ => []
  | _ :: r, O => o :: r
  | x :: r, S l' => x :: heap_set r l' o
  end.

(** ** Exceptions and the state *)

Inductive exn : Type :=
| MongoDBConnectionError
| MongoDBCollectionError
| MongoFieldError
| MondgoDBInvalidDocumentError
| TypeError
| AttributeError
| KeyError
| ValueError
| UnboundLocalError
| InvalidDocument     (* bson.errors.InvalidDocument *)
| InvalidId           (* bson.errors.InvalidId *)
| WriteError.         (* pymongo.errors.WriteError *)

Inductive result (A : Type) : Type :=
| Ok (a : A)
| Raise (e : exn).
Arguments Ok {A} a.
Arguments Raise {A} e.

(** The database behind the driver: named collections of records. *)
Definition record := pydict.

Record Database : Type := mkDatabase {
  collections : list (string * list record);
  next_oid : nat
}.

(** What the layer asks of the outside world, in order. *)
Inductive event : Type :=
| EConnect (attempt : Z)
| ESleep (seconds : Z)
| EListCollectionNames
| EInsertOne (coll : string) (doc : record)
| EReplaceOne (coll : string) (id : value) (doc : record)
| EUnset (coll : string) (id : value) (field : string)
| EFindOne (coll : string) (id : value)
| EFindOneAndUpdate (coll : string) (id : value) (inc : Z)
| EPrint.

Record State : Type := mkState {
  _db : option string;            (* DataBase._db: the selected database *)
  environ : list (string * string);
  mongo : Database;               (* what the server stores *)
  objects : heap;
  trace : list event
}.

Definition M (A : Type) : Type := State -> State * result A.

Definition ret {A} (a : A) : M A := fun s => (s, Ok a).
Definition raise {A} (e : exn) : M A := fun s => (s, Raise e).
Definition bind {A B} (m : M A) (f : A -> M B) : M B :=
  fun s => match m s with
           | (s', Ok a) => f a s'
           | (s', Raise e) => (s', Raise e)
           end.
Definition get : M State := fun s => (s, Ok s).
Definition emit (e : event) : M unit :=
  fun s => (mkState (_db s) (environ s) (mongo s) (objects s) (trace s ++ [e]), Ok tt).
Definition set_db (d : option string) : M unit :=
  fun s => (mkState d (environ s) (mongo s) (objects s) (trace s), Ok tt).
Definition set_mongo (m : Database) : M unit :=
  fun s => (mkState (_db s) (environ s) m (objects s) (trace s), Ok tt).
Definition set_objects (h : heap) : M unit :=
  fun s => (mkState (_db s) (environ s) (mongo s) h (trace s), Ok tt).

(** [try: m except e: handler] *)
Definition try_except {A} (m : M A) (catch : exn -> option (M A)) : M A :=
  fun s => match m s with
           | (s', Ok a) => (s', Ok a)
           | (s', Raise e) =>
               match catch e with
               | Some h => h s'
               | None => (s', Raise e)
               end
           end.

Declare Scope py_scope.
Delimit Scope py_scope with py.
Notation "x <- m ;; k" := (bind m (fun x => k))
  (at level 61, m at next level, right associativity) : py_scope.
Notation "m ;;; k" := (bind m (fun _ => k))
  (at level 61, right associativity) : py_scope.
Open Scope py_scope.

(** ** Connection manager: [init_db] *)

(** Outcome of [MongoClient(...)] followed by [client.server_info()]:
    the only failure the loop catches is the server-selection timeout. *)
Inductive conn_outcome : Type :=
| Connected
| ServerSelectionTimeoutError.

(** [time.sleep]: a negative length is a [ValueError]. *)
Definition sleep (seconds : Z) : M unit :=
  if seconds <? 0 then raise ValueError else emit (ESleep seconds).

(** The body of [for i in range(retries)], from index [i] on, with [n]
    iterations left.  The result says whether [client] was bound. *)
Fixpoint init_db_loop (net : Z -> conn_outcome) (retries retry_delay : Z)
         (n : nat) (i : Z) : M bool :=
  match n with
  | O => ret false
  | S n' =>
      emit (EConnect i) ;;;
      match net i with
      | Connected => ret true
      | ServerSelectionTimeoutError =>
          if i =? retries - 1
          then raise MongoDBConnectionError
          else sleep (retry_delay ^ i) ;;;
               init_db_loop net retries retry_delay n' (i + 1)
      end
  end.

Definition init_db (net : Z -> conn_outcome) (database : string)
           (retries retry_delay : Z) : M unit :=
  bound <- init_db_loop net retries retry_delay (Z.to_nat retries) 0 ;;
  if bound : bool then set_db (Some database)
  else raise UnboundLocalError.





(** ** Heap access *)

Definition new_object (o : obj) : M loc :=
  fun s => (mkState (_db s) (environ s) (mongo s) (objects s ++ [o]) (trace s),
            Ok (List.length (objects s))).

(** The [__dict__] of an instance. *)
Definition attrs_of (self : loc) : M loc :=
  s <- get ;;
  match heap_get (objects s) self with
  | Some (ODoc _ a) => ret a
  | _ => raise AttributeError
  end.

Definition read_dict (a : loc) : M pydict :=
  s <- get ;;
  match heap_get (objects s) a with
  | Some (ODict d) => ret d
  | _ => raise TypeError
  end.

Definition write_dict (a : loc) (d : pydict) : M unit :=
  s <- get ;; set_objects (heap_set (objects s) a (ODict d)).

(** ** The driver, as far as the layer uses it *)

Definition coll_get (db : Database) (c : string) : list record :=
  match find (fun kv => String.eqb (fst kv) c) (collections db) with
  | Some kv => snd kv
  | None => []
  end.

Fixpoint coll_table_put (t : list (string * list record)) (c : string)
         (rs : list record) : list (string * list record) :=
  match t with
  | [] => [(c, rs)]
  | (c', rs') :: r =>
      if String.eqb c' c then (c', rs) :: r
      else (c', rs') :: coll_table_put r c rs
  end.

Definition coll_put (db : Database) (c : string) (rs : list record) : Database :=
  mkDatabase (coll_table_put (collections db) c rs) (next_oid db).


Definition has_id (id : value) (r : record) : bool :=
  match dict_get r "_id" with
  | Some v => value_eqb v id
  | None => false
  end.



(** Replace the first record the filter [{'_id': id}] matches. *)
Fixpoint replace_first (id : value) (f : record -> record)
         (rs : list record) : list record * nat :=
  match rs with
  | [] => ([], O)
  | r :: rest =>
      if has_id id r then (f r :: rest, 1%nat)
      else let (rest', n) := replace_first id f rest in (r :: rest', n)
  end.



(** [collection.update_one({'_id': id}, {'$unset': {field: ''}})] *)
Definition update_one_unset (c : string) (id : value) (field : string) : M nat :=
  emit (EUnset c id field) ;;;
  s <- get ;;
  let res := replace_first id (fun r => dict_del r field)
                           (coll_get (mongo s) c) in
  match snd res with
  | O => ret O
  | S _ =>
      if String.eqb field "_id" then raise WriteError
      else set_mongo (coll_put (mongo s) c (fst res)) ;;; ret (snd res)
  end.

(** [collection.find_one({'_id': id})]: a fresh dict, or [None]. *)
Definition find_one (c : string) (id : value) : M value :=
  emit (EFindOne c id) ;;;
  s <- get ;;
  match find (has_id id) (coll_get (mongo s) c) with
  | Some r => l <- new_object (ODict r) ;; ret (VRef l)
  | None => ret VNone
  end.



(** ** Classes *)

(** The annotation types the model covers. *)
Inductive pytype : Type := TInt | TStr | TBool | TDict | TList.

(** A class, as far as the layer looks at it: its name, its
    [__annotations__], the names visible as class attributes along its
    resolution order, [__slots__] when set, the bound [collection], and
    for the class the [model] decorator builds (which has an [__init__]
    and a [__setattr__] of its own) the collection name captured by the
    decorator. *)
Record pyclass : Type := mkClass {
  cls_name : string;
  annotations : list (string * pytype);
  class_attrs : list string;
  slots : option (list string);
  collection : option string;
  model_of : option string
}.

(** Attributes [Document] brings: its own, those of [DataBase], and the
    public methods of [dict].  Special (double underscore) names are
    left out of the model. *)
Definition Document_attrs : list string :=
  ["collection"; "_get_auto_id"; "save"; "delete_field"; "get_by_id";
   "insert_many"; "all"; "find"; "find_in"; "delete"; "document_count";
   "_db"; "_models";
   "clear"; "copy"; "fromkeys"; "get"; "items"; "keys"; "pop"; "popitem";
   "setdefault"; "update"; "values"].

Definition mem_string (x : string) (l : list string) : bool :=
  existsb (String.eqb x) l.

(** [hasattr(self, name)]: the instance's [__dict__], then the class. *)
Definition hasattr (C : pyclass) (self : loc) (name : string) : M bool :=
  a <- attrs_of self ;;
  d <- read_dict a ;;
  ret (dict_has d name || mem_string name (class_attrs C)).

(** [object.__setattr__]: store into [__dict__]. *)
Definition object_setattr (self : loc) (name : string) (v : value) : M unit :=
  a <- attrs_of self ;;
  d <- read_dict a ;;
  write_dict a (dict_set d name v).

(** [self.name = v]: [NewClass.__setattr__] of the decorator for a model
    class, the inherited [object.__setattr__] otherwise. *)
Definition instance_setattr (C : pyclass) (self : loc) (name : string)
           (v : value) : M unit :=
  match model_of C with
  | Some _ =>
      present <- hasattr C self name ;;
      if present : bool then object_setattr self name v
      else raise AttributeError
  | None => object_setattr self name v
  end.

(** ** [Document] *)

(** [isinstance(v, dict)]: the dict items of [v], for a dict and for a
    document instance (a dict subclass). *)
Definition as_dict (h : heap) (v : value) : option pydict :=
  match v with
  | VRef l =>
      match heap_get h l with
      | Some (ODict d) => Some d
      | Some (ODoc d _) => Some d
      | _ => None
      end
  | _ => None
  end.

(** [isinstance(v, Document)]: the [__dict__] of [v]. *)
Definition as_document (h : heap) (v : value) : option loc :=
  match v with
  | VRef l =>
      match heap_get h l with
      | Some (ODoc _ a) => Some a
      | _ => None
      end
  | _ => None
  end.

(** One step of the loop over [d.items()]: [d[k] = v.__dict__]. *)
Definition flatten_entry (h : heap) (kv : string * value) : string * value :=
  match as_document h (snd kv) with
  | Some a => (fst kv, VRef a)
  | None => kv
  end.

(** [Document.__init__(self, *args, **kwargs)].  The local copy [d]
    is dropped when the constructor returns and is not allocated. *)
Definition Document_init (C : pyclass) (self : loc) (args : list value)
           (kwargs : pydict) : M unit :=
  (if negb (dict_has kwargs "_id") then instance_setattr C self "_id" VNone
   else ret tt) ;;;
  s <- get ;;
  let d := match args with
           | a0 :: _ =>
               match as_dict (objects s) a0 with
               | Some items => items
               | None => kwargs
               end
           | [] => kwargs
           end in
  let d := map (flatten_entry (objects s)) d in
  a <- attrs_of self ;;
  cur <- read_dict a ;;
  write_dict a (dict_update cur d).





(** [self._id]: the instance's [__dict__], then the class. *)
Definition getattr_id (C : pyclass) (self : loc) : M value :=
  a <- attrs_of self ;;
  d <- read_dict a ;;
  match dict_get d "_id" with
  | Some v => ret v
  | None =>
      if mem_string "_id" (class_attrs C) then ret VObj
      else raise AttributeError
  end.





(** [Document.delete_field(self, field)] *)
Definition delete_field (C : pyclass) (self : loc) (field : string) : M unit :=
  a <- attrs_of self ;;
  d <- read_dict a ;;
  if dict_has d field then
    match collection C with
    | None => raise AttributeError
    | Some c =>
        id <- getattr_id C self ;;
        update_one_unset c id field ;;; ret tt
    end
  else raise MongoFieldError.

(** ** The [model] decorator *)

(** [isinstance(v, type_)]; [bool] is a subclass of [int], a document
    instance is a [dict]. *)
Definition isinstance (h : heap) (v : value) (ty : pytype) : bool :=
  match ty, v with
  | TInt, VInt _ => true
  | TInt, VBool _ => true
  | TBool, VBool _ => true
  | TStr, VStr _ => true
  | TDict, VRef l =>
      match heap_get h l with
      | Some (ODict _) => true
      | Some (ODoc _ _) => true
      | _ => false
      end
  | TList, VRef l =>
      match heap_get h l with
      | Some (OList _) => true
      | _ => false
      end
  | _, _ => false
  end.

(** [type_()]: the value a type gives when called without arguments. *)
Definition zero_value (ty : pytype) : M value :=
  match ty with
  | TInt => ret (VInt 0)
  | TStr => ret (VStr "")
  | TBool => ret (VBool false)
  | TDict => l <- new_object (ODict []) ;; ret (VRef l)
  | TList => l <- new_object (OList []) ;; ret (VRef l)
  end.

(** The value of one annotated field: the keyword of that name (popped
    from [kwargs]), else the first positional argument left, else
    [type_()]. *)
Definition pick_field (name : string) (type_ : pytype) (args : list value)
           (kwargs : pydict) : M (value * list value * pydict) :=
  match dict_get kwargs name with
  | Some v => ret (v, args, dict_del kwargs name)
  | None =>
      match args with
      | a0 :: args' => ret (a0, args', kwargs)
      | [] => v <- zero_value type_ ;; ret (v, args, kwargs)
      end
  end.

(** The loop of [NewClass.__init__] over [cls.__annotations__.items()];
    it returns what is left of [args] and [kwargs]. *)
Fixpoint bind_fields (anns : list (string * pytype)) (self : loc)
         (args : list value) (kwargs : pydict) : M (list value * pydict) :=
  match anns with
  | [] => ret (args, kwargs)
  | (name, type_) :: rest =>
      picked <- pick_field name type_ args kwargs ;;
      let '(v, args', kwargs') := picked in
      s <- get ;;
      if negb (isinstance (objects s) v type_) then raise TypeError
      else
        a <- attrs_of self ;;
        d <- read_dict a ;;
        write_dict a (dict_set d name v) ;;;
        bind_fields rest self args' kwargs'
  end.

(** [NewClass.__init__].  The assignment [NewClass.collection = ...]
    goes to the name [NewClass] of the enclosing function, which the
    decorator [mongo_check_and_connect] has rebound to its wrapper: no
    class attribute changes, only the subscript on [_db] is evaluated. *)
Definition NewClass_init (C : pyclass) (collection_name : string)
           (self : loc) (args : list value) (kwargs : pydict) : M unit :=
  rest <- bind_fields (annotations C) self args kwargs ;;
  let '(args', kwargs') := rest in
  a <- attrs_of self ;;
  d <- read_dict a ;;
  write_dict a (dict_set d "_id" VNone) ;;;
  Document_init C self args' kwargs' ;;;
  s <- get ;;
  match _db s with
  | None => raise TypeError
  | Some _ => emit EPrint
  end.

(** Calling a class: a new instance (an empty dict with an empty
    [__dict__]) and the [__init__] the class resolves to. *)
Definition construct (C : pyclass) (args : list value) (kwargs : pydict)
  : M loc :=
  a <- new_object (ODict []) ;;
  self <- new_object (ODoc [] a) ;;
  (match model_of C with
   | Some collection_name => NewClass_init C collection_name self args kwargs
   | None => Document_init C self args kwargs
   end) ;;;
  ret self.

(** [Document.get_by_id(cls, _id)].  [ObjectId] is the parser of the
    BSON library: [None] stands for [bson.errors.InvalidId]. *)
Definition get_by_id (ObjectId : string -> option value)
           (cls : pyclass) (_id : string) : M value :=
  try_except
    (match collection cls with
     | None => raise AttributeError
     | Some c =>
         match ObjectId _id with
         | None => raise InvalidId
         | Some oid =>
             found <- find_one c oid ;;
             self <- construct cls [found] [] ;;
             ret (VRef self)
         end
     end)
    (fun e => match e with
              | InvalidId => Some (ret VNone)
              | _ => None
              end).



(** ** Class creation *)






(** ** Reading a run *)

(** The events a call added to the trace are compared with what the
    description of the call promises. *)
Definition with_trace (s : State) (t : list event) : State :=
  mkState (_db s) (environ s) (mongo s) (objects s) t.










Definition is_store (e : event) : bool :=
  match e with
  | EInsertOne _ _ => true
  | EReplaceOne _ _ _ => true
  | _ => false
  end.

Definition no_store (t : list event) : bool :=
  forallb (fun e => negb (is_store e)) t.


(** The attribute mapping of the instance at [self]. *)
Definition fields (s : State) (self : loc) : option pydict :=
  match heap_get (objects s) self with
  | Some (ODoc _ a) =>
      match heap_get (objects s) a with
      | Some (ODict d) => Some d
      | _ => None
      end
  | _ => None
  end.

Definition is_instance (h : heap) (self a : loc) (d : pydict) : Prop :=
  (exists items, heap_get h self = Some (ODoc items a))
  /\ heap_get h a = Some (ODict d).


(** A value is valid in a heap when it does not point outside of it. *)
Definition valid_value (h : heap) (v : value) : Prop :=
  match v with
  | VRef l => (l < List.length h)%nat
  | _ => True
  end.

Definition valid_dict (h : heap) (d : pydict) : Prop :=
  Forall (fun kv => valid_value h (snd kv)) d.

(** The dict [Document.__init__] copies: the first positional argument
    when it is a dict, the keyword arguments otherwise. *)
Definition init_source (h : heap) (args : list value) (kwargs : pydict)
  : pydict :=
  match args with
  | a0 :: _ =>
      match as_dict h a0 with
      | Some items => items
      | None => kwargs
      end
  | [] => kwargs
  end.

(** The attribute mapping a class that uses [Document.__init__] gives a
    new instance. *)
Definition Document_fields (h : heap) (args : list value) (kwargs : pydict)
  : pydict :=
  dict_update (if dict_has kwargs "_id" then [] else [("_id", VNone)])
              (map (flatten_entry h) (init_source h args kwargs)).





(** ** Sample classes and states *)

Definition User_class : pyclass :=
  mkClass "User" [] Document_attrs None (Some "users") None.



Definition connected_state : State :=
  mkState (Some "app") []
          (mkDatabase [("users", []); ("counters", [])] 7) [] [].


Definition alice_saved : State :=
  mkState (Some "app") []
    (mkDatabase
       [("users", [[("name", VStr "Alice"); ("age", VInt 30); ("_id", VOid 7)]])]
       8)
    [ODict [("name", VStr "Alice"); ("age", VInt 30); ("_id", VOid 7)];
     ODoc [] 0%nat]
    [].

(** A parser of identities that accepts exactly the strings of 24
    characters, for the examples. *)
Definition sample_ObjectId (s : string) : option value :=
  if (String.length s =? 24)%nat then Some (VOid (String.length s)) else None.






(** [v] is what [type_()] gives: 0, the empty string, False, or a
    reference to an empty dict or list. *)
Definition is_zero (h : heap) (ty : pytype) (v : value) : Prop :=
  match ty with
  | TInt => v = VInt 0
  | TStr => v = VStr ""
  | TBool => v = VBool false
  | TDict => exists l, v = VRef l /\ heap_get h l = Some (ODict [])
  | TList => exists l, v = VRef l /\ heap_get h l = Some (OList [])
  end.


Definition same_world (s s' : State) : Prop :=
  _db s' = _db s /\ environ s' = environ s /\ mongo s' = mongo s
  /\ trace s' = trace s.






(** ** Result lists and queries *)















(** [cls(item)] for a record the driver returned: the record is a new
    dict. *)
Definition wrap_item (cls : pyclass) (item : record) : M loc :=
  l <- new_object (ODict item) ;;
  construct cls [VRef l] [].









(** A scalar is a value that is not a reference. *)
Definition scalar (v : value) : bool :=
  match v with VRef _ => false | _ => true end.

Definition scalar_dict (d : pydict) : bool :=
  forallb (fun kv => scalar (snd kv)) d.

Fixpoint distinct_keys (d : pydict) : bool :=
  match d with
  | [] => true
  | (k, _) :: r => negb (dict_has r k) && distinct_keys r
  end.

(** A stored record as the layer writes it from scalar fields: distinct
    keys, scalar values, an [_id]. *)
Definition record_ok (r : record) : bool :=
  scalar_dict r && distinct_keys r && dict_has r "_id".








(** A constructor call [f] builds, for every record that satisfies [P],
    a new instance whose attribute mapping is [g] of the record, and
    only allocates. *)
Definition builds (f : record -> M loc) (g : record -> pydict)
           (P : record -> Prop) : Prop :=
  forall r s,
    P r ->
    exists s' self,
      f r s = (s', Ok self)
      /\ same_world s s'
      /\ (exists ext, objects s' = objects s ++ ext)
      /\ fields s' self = Some (g r).

(** Two dicts with the same entries, whatever the order. *)
Definition same_entries (d e : pydict) : Prop :=
  forall k, dict_get d k = dict_get e k.







Definition bob_stored : State :=
  mkState (Some "app") []
    (mkDatabase [("users", [[("name", VStr "Bob"); ("_id", VOid 24)]])] 25)
    [] [].




(** * Properties *)

(** ** Connection retries *)

Lemma with_trace_id s : with_trace s (trace s) = s.
Proof. destruct s; reflexivity. Qed.






(** Without an attempt allowed the loop body never runs and the name
    [client] is unbound after the loop. *)
Lemma init_db_no_attempt net database retries retry_delay st :
  retries <= 0 ->
  init_db net database retries retry_delay st = (st, Raise UnboundLocalError).
Proof.
  intro H. unfold init_db.
  replace (Z.to_nat retries) with O by lia. reflexivity.
Qed.


(** ** Dicts, heaps and collections *)


Lemma value_eqb_eq a b : value_eqb a b = true -> a = b.
Proof.
  destruct a, b; cbn; try discriminate; auto; intro H; f_equal.
  - now apply Bool.eqb_prop.
  - now apply Z.eqb_eq.
  - now apply String.eqb_eq.
  - now apply Nat.eqb_eq.
  - now apply Nat.eqb_eq.
Qed.

Lemma dict_get_set_same d k v : dict_get (dict_set d k v) k = Some v.
Proof.
  induction d as [|[k' v'] d IH]; cbn.
  - now rewrite String.eqb_refl.
  - destruct (String.eqb k' k) eqn:E; cbn; rewrite E; auto.
Qed.

Lemma dict_get_set_other d k k' v :
  k <> k' -> dict_get (dict_set d k v) k' = dict_get d k'.
Proof.
  intro N. induction d as [|[k0 v0] d IH]; cbn.
  - destruct (String.eqb k k') eqn:E; auto.
    apply String.eqb_eq in E. contradiction.
  - destruct (String.eqb k0 k) eqn:E; cbn.
    + apply String.eqb_eq in E. subst k0.
      destruct (String.eqb k k') eqn:E'; auto.
      apply String.eqb_eq in E'. contradiction.
    + now rewrite IH.
Qed.


Lemma dict_get_del_other d k k' :
  k <> k' -> dict_get (dict_del d k) k' = dict_get d k'.
Proof.
  intro N. unfold dict_del. induction d as [|[k0 v0] d IH]; cbn; auto.
  destruct (String.eqb k0 k) eqn:E; cbn.
  - apply String.eqb_eq in E. subst k0.
    destruct (String.eqb k k') eqn:E'; auto.
    apply String.eqb_eq in E'. contradiction.
  - now rewrite IH.
Qed.


Lemma heap_get_valid h l o : heap_get h l = Some o -> (l < List.length h)%nat.
Proof.
  unfold heap_get. intro H. apply nth_error_Some. congruence.
Qed.




Lemma heap_get_alloc_old h o l x :
  heap_get h l = Some x -> heap_get (h ++ [o]) l = Some x.
Proof.
  unfold heap_get. intro H. rewrite nth_error_app1; auto.
  apply nth_error_Some. congruence.
Qed.

Lemma heap_get_alloc_new h o : heap_get (h ++ [o]) (List.length h) = Some o.
Proof.
  unfold heap_get. rewrite nth_error_app2 by lia.
  now rewrite Nat.sub_diag.
Qed.

Lemma coll_table_put_get t c rs :
  find (fun kv => String.eqb (fst kv) c) (coll_table_put t c rs) = Some
    (match find (fun kv => String.eqb (fst kv) c) t with
     | Some kv => (fst kv, rs)
     | None => (c, rs)
     end).
Proof.
  induction t as [|[c' rs'] t IH]; cbn.
  - now rewrite String.eqb_refl.
  - destruct (String.eqb c' c) eqn:E; cbn; rewrite E; auto.
Qed.

Lemma coll_get_put db c rs : coll_get (coll_put db c rs) c = rs.
Proof.
  unfold coll_get, coll_put. cbn [collections].
  rewrite coll_table_put_get.
  now destruct (find _ (collections db)).
Qed.




Lemma find_replace_first id f rs r :
  find (has_id id) rs = Some r ->
  has_id id (f r) = true ->
  find (has_id id) (fst (replace_first id f rs)) = Some (f r)
  /\ snd (replace_first id f rs) = 1%nat.
Proof.
  induction rs as [|x rs IH]; cbn; [discriminate|].
  destruct (has_id id x) eqn:E; intros H Hf.
  - injection H as ->. cbn. now rewrite Hf.
  - destruct (replace_first id f rs) as [rs' n] eqn:R. cbn in *.
    rewrite E. auto.
Qed.

Lemma replace_first_none id f rs :
  find (has_id id) rs = None -> replace_first id f rs = (rs, O).
Proof.
  induction rs as [|x rs IH]; cbn; auto.
  destruct (has_id id x); [discriminate|].
  intro H. now rewrite IH.
Qed.


Lemma find_has_id id rs r : find (has_id id) rs = Some r -> has_id id r = true.
Proof. intro H. now apply find_some in H. Qed.


(** ** The auto-increment counter *)





(** ** Instances in the heap *)

Lemma fields_instance s self d :
  fields s self = Some d <-> exists a, is_instance (objects s) self a d.
Proof.
  unfold fields, is_instance. split.
  - destruct (heap_get (objects s) self) as [[| |items a]|] eqn:E;
      try discriminate.
    destruct (heap_get (objects s) a) as [[d'| |]|] eqn:F; try discriminate.
    intro H. injection H as ->. exists a. split; eauto.
  - intros (a & (items & E) & F). now rewrite E, F.
Qed.


Lemma attrs_of_instance s self a d :
  is_instance (objects s) self a d -> attrs_of self s = (s, Ok a).
Proof.
  intros [(items & E) _]. unfold attrs_of, bind, get. now rewrite E.
Qed.

Lemma read_dict_instance s self a d :
  is_instance (objects s) self a d -> read_dict a s = (s, Ok d).
Proof.
  intros [_ F]. unfold read_dict, bind, get. now rewrite F.
Qed.

Lemma getattr_id_instance C s self a d v :
  is_instance (objects s) self a d ->
  dict_get d "_id" = Some v ->
  getattr_id C self s = (s, Ok v).
Proof.
  intros I G. unfold getattr_id, bind.
  rewrite (attrs_of_instance _ _ _ _ I), (read_dict_instance _ _ _ _ I).
  now rewrite G.
Qed.




(** ** Driver calls on the attribute mapping *)



Ltac run :=
  cbv beta iota delta
      [bind get ret raise emit set_db set_mongo set_objects write_dict
       read_dict attrs_of new_object try_except].




(** ** Saving *)

Lemma bind_run {A B} (m : M A) (f : A -> M B) s s' a :
  m s = (s', Ok a) -> bind m f s = f a s'.
Proof. intro H. unfold bind. now rewrite H. Qed.





Lemma no_store_app t u : no_store (t ++ u) = no_store t && no_store u.
Proof. unfold no_store. apply forallb_app. Qed.



Lemma heap_set_app_new h o o' r :
  heap_set (h ++ o :: r) (List.length h) o' = h ++ o' :: r.
Proof. induction h as [|x h IH]; cbn; congruence. Qed.

Lemma heap_get_app_valid h ext l :
  (l < List.length h)%nat -> heap_get (h ++ ext) l = heap_get h l.
Proof. intro H. unfold heap_get. now apply nth_error_app1. Qed.

Lemma as_dict_app h ext v :
  valid_value h v -> as_dict (h ++ ext) v = as_dict h v.
Proof.
  destruct v; cbn; auto. intro H. now rewrite heap_get_app_valid.
Qed.

Lemma as_document_app h ext v :
  valid_value h v -> as_document (h ++ ext) v = as_document h v.
Proof.
  destruct v; cbn; auto. intro H. now rewrite heap_get_app_valid.
Qed.

Lemma flatten_app h ext d :
  valid_dict h d ->
  map (flatten_entry (h ++ ext)) d = map (flatten_entry h) d.
Proof.
  induction 1 as [|[k v] d Hv Hd IH]; cbn; auto.
  unfold flatten_entry at 1 3. cbn [fst snd] in *.
  rewrite as_document_app by assumption. now rewrite IH.
Qed.

Lemma heap_get_mid h o r : heap_get (h ++ o :: r) (List.length h) = Some o.
Proof.
  unfold heap_get. rewrite nth_error_app2 by lia.
  now rewrite Nat.sub_diag.
Qed.

Lemma heap_get_mid1 h o o' r :
  heap_get (h ++ o :: o' :: r) (S (List.length h)) = Some o'.
Proof.
  unfold heap_get. rewrite nth_error_app2 by lia.
  replace (S (List.length h) - List.length h)%nat with 1%nat by lia.
  reflexivity.
Qed.

(** Calling a class that uses [Document.__init__]: two objects are
    allocated, nothing else in the heap changes. *)
Lemma construct_document C args kwargs st :
  model_of C = None ->
  Forall (valid_value (objects st)) args ->
  valid_dict (objects st) (init_source (objects st) args kwargs) ->
  construct C args kwargs st =
    (mkState (_db st) (environ st) (mongo st)
             (objects st ++
                [ODict (Document_fields (objects st) args kwargs);
                 ODoc [] (List.length (objects st))])
             (trace st),
     Ok (S (List.length (objects st)))).
Proof.
  intros HM Va Vd. unfold construct. rewrite HM. run.
  cbn [_db environ mongo objects trace].
  rewrite <- app_assoc. cbn [app]. rewrite length_app. cbn [List.length].
  replace (List.length (objects st) + 1)%nat
    with (S (List.length (objects st))) by lia.
  unfold Document_init, instance_setattr, object_setattr. rewrite HM. run.
  set (h := objects st) in *.
  assert (Src : forall x,
    match args with
    | [] => kwargs
    | a0 :: _ => match as_dict (h ++ [ODict x; ODoc [] (List.length h)]) a0 with
                 | Some items => items
                 | None => kwargs
                 end
    end = init_source h args kwargs).
  { intro x. unfold init_source. destruct args as [|a0 args]; auto.
    rewrite as_dict_app; auto. now inversion Va. }
  destruct (dict_has kwargs "_id") eqn:K; cbn [negb];
    repeat (first [ rewrite heap_get_mid1 | rewrite heap_get_mid
                  | rewrite heap_set_app_new | rewrite Src
                  | progress cbv beta iota
                  | progress cbn [_db environ mongo objects trace] ]);
    rewrite flatten_app by assumption;
    unfold Document_fields; rewrite K; reflexivity.
Qed.


Lemma dict_get_update_absent e : forall d k,
  dict_has e k = false -> dict_get (dict_update d e) k = dict_get d k.
Proof.
  unfold dict_update, dict_has.
  induction e as [|[k' v] e IH]; intros d k H; cbn in *; auto.
  destruct (String.eqb k' k) eqn:E; [discriminate|].
  rewrite IH by assumption. apply dict_get_set_other.
  intro; subst. now rewrite String.eqb_refl in E.
Qed.






(** ** Identity and persistence *)


Lemma fields_construct st d :
  fields (mkState (_db st) (environ st) (mongo st)
                  (objects st ++ [ODict d; ODoc [] (List.length (objects st))])
                  (trace st))
         (S (List.length (objects st))) = Some d.
Proof.
  unfold fields. cbn [objects].
  now rewrite heap_get_mid1, heap_get_mid.
Qed.





(** ** Deleting a field *)

(** On a field the instance does not have, [delete_field] raises and
    leaves the whole state, trace included, as it was. *)
Lemma delete_field_absent C self d field st :
  fields st self = Some d ->
  dict_has d field = false ->
  delete_field C self field st = (st, Raise MongoFieldError).
Proof.
  intros F H. apply fields_instance in F as [a I]. unfold delete_field.
  rewrite (bind_run _ _ _ _ _ (attrs_of_instance _ _ _ _ I)).
  rewrite (bind_run _ _ _ _ _ (read_dict_instance _ _ _ _ I)).
  now rewrite H.
Qed.

(** On a field the instance has, [delete_field] sends the unset update
    keyed by the instance's [_id], which removes the field from the
    stored record; the heap, and so the instance, is not touched. *)
Lemma delete_field_present C c self d field id st :
  collection C = Some c ->
  fields st self = Some d ->
  dict_has d field = true ->
  dict_get d "_id" = Some id ->
  field <> "_id" ->
  exists st',
    delete_field C self field st = (st', Ok tt)
    /\ trace st' = trace st ++ [EUnset c id field]
    /\ objects st' = objects st
    /\ fields st' self = Some d
    /\ (forall r, find (has_id id) (coll_get (mongo st) c) = Some r ->
                  find (has_id id) (coll_get (mongo st') c)
                    = Some (dict_del r field)).
Proof.
  intros HC F H G N. pose proof F as F0.
  apply fields_instance in F as [a I]. unfold delete_field.
  rewrite (bind_run _ _ _ _ _ (attrs_of_instance _ _ _ _ I)).
  rewrite (bind_run _ _ _ _ _ (read_dict_instance _ _ _ _ I)).
  rewrite H, HC.
  rewrite (bind_run _ _ _ _ _ (getattr_id_instance C _ _ _ _ _ I G)).
  unfold update_one_unset. run. cbn [_db environ mongo objects trace].
  apply String.eqb_neq in N. rewrite N.
  destruct (find (has_id id) (coll_get (mongo st) c)) as [r|] eqn:Fd.
  - destruct (find_replace_first id (fun r => dict_del r field) _ r Fd)
      as [H1 H2].
    { unfold has_id. rewrite dict_get_del_other.
      - apply (find_has_id _ _ _ Fd).
      - intro; subst. now rewrite String.eqb_refl in N. }
    rewrite H2. cbv beta iota. cbn [_db environ mongo objects trace].
    eexists. split; [reflexivity|]. cbn [_db environ mongo objects trace].
    repeat split; auto.
    intros r' Hr'. injection Hr' as <-. now rewrite coll_get_put.
  - rewrite (replace_first_none _ _ _ Fd). cbn [snd]. cbv beta iota.
    eexists. split; [reflexivity|]. cbn [_db environ mongo objects trace].
    repeat split; auto. discriminate.
Qed.

(** C3 -- [delete_field "age"] on a saved instance that has the field:
    the stored record loses the field, the instance still has it. *)
Theorem delete_field_keeps_instance_field :
  exists st',
    delete_field User_class 1%nat "age" alice_saved = (st', Ok tt)
    /\ trace st' = [EUnset "users" (VOid 7) "age"]
    /\ coll_get (mongo st') "users"
         = [[("name", VStr "Alice"); ("_id", VOid 7)]]
    /\ fields st' 1%nat
         = Some [("name", VStr "Alice"); ("age", VInt 30); ("_id", VOid 7)]
    /\ (exists d, fields st' 1%nat = Some d /\ dict_has d "age" = true).
Proof.
  eexists. split; [reflexivity|]. cbn.
  repeat split; eauto.
Qed.

(** ** Looking a document up by identity *)

(** C8 -- [get_by_id] of a class bound to a collection, on a string the
    BSON library rejects as an identity: the call returns None and
    raises nothing; the database is not asked. *)
Theorem get_by_id_malformed :
  forall (ObjectId : string -> option value) (cls : pyclass) (c : string)
         (_id : string) (st : State),
    collection cls = Some c ->
    ObjectId _id = None ->
    get_by_id ObjectId cls _id st = (st, Ok VNone).
Proof.
  intros ObjectId cls c _id st HC H. unfold get_by_id, try_except.
  now rewrite HC, H.
Qed.

Lemma get_by_id_malformed_witness :
  get_by_id sample_ObjectId User_class "not-an-id" connected_state
    = (connected_state, Ok VNone).
Proof.
  apply (get_by_id_malformed sample_ObjectId User_class "users").
  - reflexivity.
  - reflexivity.
Defined.

(** C10 -- [get_by_id] of a class bound to a collection that uses the
    constructor of [Document], on a well-formed identity that no stored
    record has: the driver's None goes to the constructor, and the call
    returns an instance whose only field is [_id] = None, the same
    attribute mapping as the one of [cls()]. *)
Theorem get_by_id_not_found :
  forall (ObjectId : string -> option value) (cls : pyclass) (c : string)
         (_id : string) (oid : value) (st : State),
    collection cls = Some c ->
    model_of cls = None ->
    ObjectId _id = Some oid ->
    find (has_id oid) (coll_get (mongo st) c) = None ->
    exists st' self,
      get_by_id ObjectId cls _id st = (st', Ok (VRef self))
      /\ fields st' self = Some [("_id", VNone)]
      /\ trace st' = trace st ++ [EFindOne c oid]
      /\ exists st'' self',
           construct cls [] [] st = (st'', Ok self')
           /\ fields st'' self' = fields st' self.
Proof.
  intros ObjectId cls c _id oid st HC HM HO HF.
  unfold get_by_id, try_except. rewrite HC, HO.
  assert (E : find_one c oid st = (with_trace st (trace st ++ [EFindOne c oid]),
                                   Ok VNone)).
  { unfold find_one. run. cbn [_db environ mongo objects trace].
    now rewrite HF. }
  rewrite (bind_run _ _ _ _ _ E).
  set (s1 := with_trace st (trace st ++ [EFindOne c oid])).
  assert (Va : Forall (valid_value (objects s1)) [VNone])
    by (repeat constructor).
  assert (Vd : valid_dict (objects s1) (init_source (objects s1) [VNone] []))
    by constructor.
  rewrite (bind_run _ _ _ _ _ (construct_document cls [VNone] [] s1 HM Va Vd)).
  unfold ret. do 2 eexists. split; [reflexivity|].
  split; [apply (fields_construct s1)|].
  split; [reflexivity|].
  rewrite (construct_document cls [] [] st HM (Forall_nil _) (Forall_nil _)).
  do 2 eexists. split; [reflexivity|].
  rewrite fields_construct.
  symmetry. apply (fields_construct s1).
Qed.

Lemma get_by_id_not_found_witness :
  exists st' self,
    get_by_id sample_ObjectId User_class "0123456789abcdef01234567"
              connected_state = (st', Ok (VRef self))
    /\ fields st' self = Some [("_id", VNone)]
    /\ trace st' = trace connected_state ++ [EFindOne "users" (VOid 24)]
    /\ exists st'' self',
         construct User_class [] [] connected_state = (st'', Ok self')
         /\ fields st'' self' = fields st' self.
Proof.
  apply (get_by_id_not_found sample_ObjectId User_class "users"
           "0123456789abcdef01234567" (VOid 24) connected_state).
  - reflexivity.
  - reflexivity.
  - reflexivity.
  - reflexivity.
Defined.

(** ** Construction *)

Lemma dict_has_notin d k : ~ In k (map fst d) -> dict_has d k = false.
Proof.
  unfold dict_has. induction d as [|[k' v] d IH]; cbn; auto.
  intro H. destruct (String.eqb k' k) eqn:E.
  - apply String.eqb_eq in E. tauto.
  - apply IH. tauto.
Qed.

Lemma dict_get_update_present e : forall d k v,
  NoDup (map fst e) ->
  dict_get e k = Some v ->
  dict_get (dict_update d e) k = Some v.
Proof.
  induction e as [|[k' v'] e IH]; intros d k v ND G; [discriminate|].
  cbn in G. inversion ND as [|? ? Hnin ND']; subst.
  change (dict_update d ((k', v') :: e))
    with (dict_update (dict_set d k' v') e).
  destruct (String.eqb k' k) eqn:E.
  - apply String.eqb_eq in E. subst k'. injection G as ->.
    rewrite dict_get_update_absent by now apply dict_has_notin.
    apply dict_get_set_same.
  - now apply IH.
Qed.






(** ** The constructor of a model class *)







Lemma is_zero_alloc h o ty v : is_zero h ty v -> is_zero (h ++ [o]) ty v.
Proof.
  destruct ty; cbn; auto; intros (l & -> & E); exists l; split; auto;
    now apply heap_get_alloc_old.
Qed.
















(** *** What each field receives *)













(** *** Attribute assignment *)







(** ** The two ways to make a model class *)




(** * Further properties *)

(** ** Result lists *)


(** ** Connecting after some failures *)




(** ** The connection guard *)



(** ** Successive counter values *)




(** ** Saving: what is stored, and when nothing is *)


















(** ** Instances that cannot be saved *)






(** ** Wrapping records into instances *)

Lemma scalar_valid h d : scalar_dict d = true -> valid_dict h d.
Proof.
  unfold scalar_dict, valid_dict. intro H. apply Forall_forall.
  intros [k v] Hin. rewrite forallb_forall in H. specialize (H _ Hin).
  now destruct v.
Qed.

Lemma scalar_flatten h d :
  scalar_dict d = true -> map (flatten_entry h) d = d.
Proof.
  unfold scalar_dict. induction d as [|[k v] d IH]; cbn; auto.
  intro H. apply andb_true_iff in H as [H1 H2]. rewrite IH by assumption.
  unfold flatten_entry. cbn [fst snd]. now destruct v.
Qed.

Lemma distinct_keys_NoDup d : distinct_keys d = true -> NoDup (map fst d).
Proof.
  induction d as [|[k v] d IH]; cbn; [constructor|].
  intro H. apply andb_true_iff in H as [H1 H2]. constructor; auto.
  intro Hin. apply negb_true_iff in H1. unfold dict_has in H1.
  apply in_map_iff in Hin as ([k' v'] & Hk & Hin). cbn in Hk. subst k'.
  clear - H1 Hin. induction d as [|[k0 v0] d IH]; cbn in *; [contradiction|].
  destruct (String.eqb k0 k) eqn:E; [discriminate|].
  destruct Hin as [Heq|Hin]; auto.
  injection Heq as -> ->. now rewrite String.eqb_refl in E.
Qed.

(** Looking a key up after [d.update(e)]. *)
Lemma dict_get_update d e k :
  distinct_keys e = true ->
  dict_get (dict_update d e) k =
    match dict_get e k with
    | Some v => Some v
    | None => dict_get d k
    end.
Proof.
  intro H. destruct (dict_get e k) as [v|] eqn:G.
  - apply dict_get_update_present; auto. now apply distinct_keys_NoDup.
  - apply dict_get_update_absent. unfold dict_has. now rewrite G.
Qed.





(** [cls(item)] on a scalar record: the attribute mapping starts with
    [_id] = None and is updated with the record. *)
Lemma wrap_item_builds C :
  model_of C = None ->
  builds (wrap_item C) (fun r => dict_update [("_id", VNone)] r)
         (fun r => scalar_dict r = true).
Proof.
  intros HM r s Hr. unfold wrap_item, bind at 1, new_object.
  set (s1 := mkState _ _ _ (objects s ++ [ODict r]) _).
  assert (Va : Forall (valid_value (objects s1)) [VRef (List.length (objects s))]).
  { repeat constructor. cbn. rewrite length_app. cbn. lia. }
  assert (Src : init_source (objects s1) [VRef (List.length (objects s))] [] = r).
  { unfold init_source, as_dict. cbn [objects s1].
    now rewrite heap_get_alloc_new. }
  rewrite (construct_document C _ [] s1 HM Va)
    by (rewrite Src; now apply scalar_valid).
  do 2 eexists. split; [reflexivity|].
  split; [repeat split|].
  split.
  - cbn [objects s1]. eexists. rewrite <- app_assoc. reflexivity.
  - rewrite (fields_construct s1). unfold Document_fields. rewrite Src.
    cbn [dict_has dict_get]. now rewrite scalar_flatten.
Qed.


Lemma record_ok_scalar r : record_ok r = true -> scalar_dict r = true.
Proof.
  unfold record_ok. intro H. apply andb_true_iff in H as [H _].
  now apply andb_true_iff in H as [H _].
Qed.

(** A record and the instance [cls(record)] have the same entries. *)
Lemma wrapped_same_entries r :
  record_ok r = true -> same_entries (dict_update [("_id", VNone)] r) r.
Proof.
  unfold record_ok. intro H.
  apply andb_true_iff in H as [H Hid]. apply andb_true_iff in H as [Hs Hd].
  intro k. rewrite dict_get_update by assumption.
  destruct (dict_get r k) as [v|] eqn:G; auto.
  cbn [dict_get]. destruct (String.eqb "_id" k) eqn:E; auto.
  apply String.eqb_eq in E. subst k. unfold dict_has in Hid.
  now rewrite G in Hid.
Qed.


(** ** Queries *)



Lemma kept_objects s s' :
  (exists ext, objects s' = objects s ++ ext) ->
  forall l o, heap_get (objects s) l = Some o ->
              heap_get (objects s') l = Some o.
Proof.
  intros [ext E] l o H. rewrite E, heap_get_app_valid; auto.
  eapply heap_get_valid; eauto.
Qed.

















(** ** Inserting *)



















(** ** Looking up *)

(** [get_by_id] on the identity of a stored record: the driver's copy
    of the record goes to the constructor. *)
Lemma get_by_id_found_run ObjectId cls c key oid r st :
  collection cls = Some c ->
  model_of cls = None ->
  ObjectId key = Some oid ->
  find (has_id oid) (coll_get (mongo st) c) = Some r ->
  scalar_dict r = true ->
  exists st',
    get_by_id ObjectId cls key st
      = (st', Ok (VRef (S (S (List.length (objects st))))))
    /\ _db st' = _db st /\ environ st' = environ st /\ mongo st' = mongo st
    /\ trace st' = trace st ++ [EFindOne c oid]
    /\ (exists ext, objects st' = objects st ++ ext)
    /\ fields st' (S (S (List.length (objects st))))
       = Some (dict_update [("_id", VNone)] r).
Proof.
  intros HC HM HO HF Hs. unfold get_by_id, try_except. rewrite HC, HO.
  set (s0 := with_trace st (trace st ++ [EFindOne c oid])).
  assert (E : find_one c oid st =
              (mkState (_db s0) (environ s0) (mongo s0)
                       (objects s0 ++ [ODict r]) (trace s0),
               Ok (VRef (List.length (objects st))))).
  { unfold find_one. run. cbn [_db environ mongo objects trace].
    now rewrite HF. }
  rewrite (bind_run _ _ _ _ _ E).
  destruct (wrap_item_builds cls HM r s0 Hs)
    as (s' & self & W & (W1 & W2 & W3 & W4) & X & F).
  unfold wrap_item, bind at 1, new_object in W.
  assert (Hself : self = S (S (List.length (objects st)))).
  { assert (Va : Forall (valid_value (objects s0 ++ [ODict r]))
                        [VRef (List.length (objects s0))]).
    { repeat constructor. cbn. rewrite length_app. cbn. lia. }
    assert (Src : init_source (objects s0 ++ [ODict r])
                              [VRef (List.length (objects s0))] [] = r).
    { unfold init_source, as_dict. now rewrite heap_get_alloc_new. }
    rewrite (construct_document cls _ []
               (mkState (_db s0) (environ s0) (mongo s0)
                        (objects s0 ++ [ODict r]) (trace s0)) HM Va) in W
      by (cbn [objects]; rewrite Src; now apply scalar_valid).
    injection W as _ W. subst self. cbn [objects]. rewrite length_app.
    cbn. lia. }
  subst self. rewrite (bind_run _ _ _ _ _ W). unfold ret.
  exists s'. split; [reflexivity|]. auto 8.
Qed.

(** X18 -- [get_by_id] of a class bound to a collection, on the
    identity of a stored record written by the layer: the call returns
    a new instance (an object that did not exist before) whose
    attributes are the entries of the record, [_id] included; the
    store is not changed, and no existing object is modified. *)
Theorem get_by_id_returns_the_stored_record ObjectId cls c key oid r st :
  collection cls = Some c ->
  model_of cls = None ->
  ObjectId key = Some oid ->
  find (has_id oid) (coll_get (mongo st) c) = Some r ->
  record_ok r = true ->
  exists st' self d,
    get_by_id ObjectId cls key st = (st', Ok (VRef self))
    /\ heap_get (objects st) self = None
    /\ fields st' self = Some d
    /\ same_entries d r
    /\ dict_get d "_id" = Some oid
    /\ mongo st' = mongo st
    /\ trace st' = trace st ++ [EFindOne c oid]
    /\ (forall l o, heap_get (objects st) l = Some o ->
                    heap_get (objects st') l = Some o).
Proof.
  intros HC HM HO HF Hr.
  destruct (get_by_id_found_run ObjectId cls c key oid r st HC HM HO HF
              (record_ok_scalar r Hr))
    as (st' & E & _ & _ & Hm & Ht & X & F).
  exists st', (S (S (List.length (objects st)))), (dict_update [("_id", VNone)] r).
  split; [exact E|]. split.
  { unfold heap_get. apply nth_error_None. lia. }
  split; [exact F|].
  pose proof (wrapped_same_entries r Hr) as SE.
  split; [exact SE|]. split.
  { rewrite SE. apply find_has_id in HF. unfold has_id in HF.
    destruct (dict_get r "_id") as [v|]; [|discriminate].
    apply value_eqb_eq in HF. now subst. }
  split; [exact Hm|]. split; [exact Ht|]. now apply kept_objects.
Qed.

Lemma get_by_id_returns_the_stored_record_witness :
  exists st' self d,
    get_by_id sample_ObjectId User_class "0123456789abcdef01234567"
              bob_stored
      = (st', Ok (VRef self))
    /\ fields st' self = Some d
    /\ same_entries d [("name", VStr "Bob"); ("_id", VOid 24)].
Proof.
  destruct (get_by_id_returns_the_stored_record sample_ObjectId User_class
              "users" "0123456789abcdef01234567" (VOid 24)
              [("name", VStr "Bob"); ("_id", VOid 24)]
              bob_stored
              eq_refl eq_refl eq_refl eq_refl eq_refl)
    as (st' & self & d & E & _ & F & SE & _).
  exists st', self, d. auto.
Defined.






(** ** Making classes *)





(** ** Deleting a field before the first save *)



(** ** A positional dict given to a model class *)




